(** * Self-healing pipeline (handle_bad_data/notebook.ipynb)

    A shallow embedding of the notebook's pipeline:

      new_df / previous_invalid_df = spark.read.schema(schema).csv(rdd)
      combined_df = new_df.union(previous_invalid_df)
      valid_df    = combined_df.filter(col("_corrupt_record").isNull())
                               .drop("_corrupt_record")
      invalid_df  = combined_df.filter(col("_corrupt_record").isNotNull())
                               .select("_corrupt_record")
      valid_df.write...mode("overwrite").csv(".../good")
      invalid_df.write...mode("overwrite").text(".../bad")

    The notebook calls Spark's CSV reader (the notebook runs on Spark
    3.5.5) with its default options: PERMISSIVE mode, comma delimiter,
    double quote as quote character, empty string as null value.  The
    reader is a library; its tokenizer and integer converter are embedded
    here for [plain] lines only: lines of printable ASCII characters
    without the quote and the escape character, with no more pieces than
    the tokenizer's column limit.  On such a line the reader cuts at
    every comma, converts each piece by the converter of its column,
    stores NULL for a piece that fails to convert (or is missing), and
    puts the raw text in the [_corrupt_record] column when a piece failed
    or the number of pieces differs from the number of data columns.  The
    rows printed by the notebook for ["4,Alice Johnson,twenty"] and
    ["5,45,Charlie Brown"] are exactly such rows.  On other lines (quoted
    fields, line feeds inside an element, digits outside ASCII) the
    library's tokenizer and converter do more than [tokenize] and
    [toInt]; every statement below that depends on how a line is cut or
    on what converts carries the hypothesis [plain]; the statements that
    use the reader's verdict as it comes do not need it. *)

From Stdlib Require Import List Bool Arith ZArith Lia.
From Stdlib Require Import Ascii String.
Import ListNotations.

Local Open Scope string_scope.
Local Open Scope list_scope.

(** ** Data model *)

Module Types.

(** [pyspark.sql.types]: the two types the notebook imports. *)
Inductive DataType : Type :=
  | IntegerType
  | StringType.

(** [StructField(name, dataType, nullable)]. *)
Record StructField : Type := mkField
  { name : string;
    dataType : DataType;
    nullable : bool }.

(** [StructType([...])]: the ordered list of columns. *)
Definition StructType : Type := list StructField.

(** A typed value of a column. *)
Inductive Value : Type :=
  | VInt (z : Z)
  | VStr (s : string).

(** A cell of a DataFrame: [None] is SQL NULL. *)
Definition Cell : Type := option Value.

(** A row of a DataFrame read with a schema that has a [_corrupt_record]
    column: the cells of the data columns, in schema order, and the
    [_corrupt_record] cell. *)
Record Row : Type := mkRow
  { data : list Cell;
    corrupt_record : option string }.

End Types.
Export Types.

(** The name of the column that PERMISSIVE mode fills with the raw text of
    a malformed line. *)
Definition columnNameOfCorruptRecord : string := "_corrupt_record".

(** The notebook's schema (first code cell). *)
Definition schema : StructType :=
  [ mkField "id" IntegerType true;
    mkField "name" StringType true;
    mkField "age" IntegerType true;
    mkField "_corrupt_record" StringType true ].

(** The columns that are parsed from the line: every column but
    [_corrupt_record]. *)
Definition dataSchema (s : StructType) : StructType :=
  filter (fun f => negb (String.eqb (name f) columnNameOfCorruptRecord)) s.

(** The notebook's test data (second code cell). *)
Definition new_data_rdd : list string :=
  [ "1,John Doe,30";
    "2,Jane Smith,25";
    "3,Bob Johnson,35";
    "4,Alice Johnson,twenty" ].

Definition previous_invalid_rdd : list string :=
  [ "5,45,Charlie Brown" ].

(** ** The CSV reader *)

Module Reader.

(** Cut a line at every [delim]; a line with [n] delimiters has [n + 1]
    pieces.  This is what the reader's tokenizer does on a [plain] line;
    quoting and line ends, which the tokenizer also handles, are not
    embedded. *)
Fixpoint split (delim : ascii) (l : string) : list string :=
  match l with
  | EmptyString => [EmptyString]
  | String c rest =>
      if Ascii.eqb c delim then EmptyString :: split delim rest
      else match split delim rest with
           | [] => [String c EmptyString]
           | t :: ts => String c t :: ts
           end
  end.

Definition tokenize (l : string) : list string := split "," l.

(** The value of an ASCII decimal digit. *)
Definition digit_of (c : ascii) : option Z :=
  let n := Z.of_nat (nat_of_ascii c) in
  if ((48 <=? n) && (n <=? 57))%Z then Some (n - 48)%Z else None.

(** Horner's rule over a run of ASCII digits. *)
Fixpoint digits (s : string) (acc : Z) : option Z :=
  match s with
  | EmptyString => Some acc
  | String c rest =>
      match digit_of c with
      | Some d => digits rest (10 * acc + d)%Z
      | None => None
      end
  end.

(** The magnitude of a non-empty run of decimal digits. *)
Definition magnitude (s : string) : option Z :=
  match s with
  | EmptyString => None
  | _ => digits s 0%Z
  end.

(** [String.toInt] on ASCII text: an optional sign, at least one decimal
    digit, and a value that fits in 32 bits; [None] stands for
    NumberFormatException.  Decimal digits outside ASCII, which the
    library also reads, are not embedded. *)
Definition toInt (s : string) : option Z :=
  match s with
  | String "-" rest =>
      match magnitude rest with
      | Some n => if (n <=? 2147483648)%Z then Some (- n)%Z else None
      | None => None
      end
  | String "+" rest =>
      match magnitude rest with
      | Some n => if (n <=? 2147483647)%Z then Some n else None
      | None => None
      end
  | _ =>
      match magnitude s with
      | Some n => if (n <=? 2147483647)%Z then Some n else None
      | None => None
      end
  end.

(** The converter of a column applied to one piece of the line: [None]
    stands for the exception that marks the line as malformed.  The empty
    piece is the null value: NULL in a nullable column, an error in a
    column declared non-nullable. *)
Definition makeConverter (f : StructField) (datum : string) : option Cell :=
  if String.eqb datum EmptyString then
    if nullable f then Some None else None
  else
    match dataType f with
    | IntegerType =>
        match toInt datum with
        | Some z => Some (Some (VInt z))
        | None => None
        end
    | StringType => Some (Some (VStr datum))
    end.

(** One column of the row: the piece at the column's position, if the
    line has one, goes through the column's converter.  A missing piece
    and a piece that fails to convert leave NULL in the cell and raise the
    bad-record flag. *)
Definition convertField (f : StructField) (token : option string)
  : Cell * bool :=
  match token with
  | None => (None, true)
  | Some t =>
      match makeConverter f t with
      | Some c => (c, false)
      | None => (None, true)
      end
  end.

(** Convert the pieces column by column; every column is attempted, so
    the cells that convert keep their values next to the failed ones.
    Pieces beyond the last column are ignored here (the count check is in
    [parseLine]). *)
Fixpoint convert (fields : list StructField) (tokens : list string)
  : list Cell * bool :=
  match fields with
  | [] => ([], false)
  | f :: fs =>
      let (cell, bad) := convertField f (hd_error tokens) in
      let (cells, bad') := convert fs (tl tokens) in
      (cell :: cells, bad || bad')
  end.

(** One line in PERMISSIVE mode: the (possibly partial) cells, and the raw
    line in [_corrupt_record] when the line is malformed. *)
Definition parseLine (s : StructType) (l : string) : Row :=
  let tokens := tokenize l in
  let fields := dataSchema s in
  let (cells, bad) := convert fields tokens in
  let malformed := negb (Nat.eqb (List.length tokens) (List.length fields)) || bad in
  {| data := cells;
     corrupt_record := if malformed then Some l else None |}.

(** A line that holds nothing but spaces. *)
Fixpoint isBlank (l : string) : bool :=
  match l with
  | EmptyString => true
  | String c rest => Ascii.eqb c " " && isBlank rest
  end.

(** [StructType.asNullable]: the same columns, all nullable. *)
Definition asNullable (s : StructType) : StructType :=
  map (fun f => mkField (name f) (dataType f) true) s.

(** [spark.read.schema(s).csv(rdd)]: a schema given for a dataset of text
    lines is taken as nullable, blank lines are skipped, and every other
    line gives one row. *)
Definition csv (s : StructType) (rdd : list string) : list Row :=
  let actual := asNullable s in
  map (parseLine actual) (filter (fun l => negb (isBlank l)) rdd).

End Reader.
Export Reader.

(** ** DataFrame operations of the notebook *)

(** [col("_corrupt_record").isNull()] and [.isNotNull()]. *)
Definition isNull (r : Row) : bool :=
  match corrupt_record r with
  | None => true
  | Some _ => false
  end.

Definition isNotNull (r : Row) : bool :=
  match corrupt_record r with
  | None => false
  | Some _ => true
  end.

(** [df.union(other)]: the rows of [df] followed by the rows of [other]. *)
Definition union (df other : list Row) : list Row := df ++ other.

(** [.drop("_corrupt_record")]: the data cells of a row. *)
Definition drop_corrupt_record (r : Row) : list Cell := data r.

(** [.select("_corrupt_record")]: the one remaining column of a row. *)
Definition select_corrupt_record (r : Row) : option string := corrupt_record r.

Definition combined_df (s : StructType) (new_data previous_invalid : list string)
  : list Row :=
  let new_df := csv s new_data in
  let previous_invalid_df := csv s previous_invalid in
  union new_df previous_invalid_df.

Definition valid_df (combined : list Row) : list (list Cell) :=
  map drop_corrupt_record (filter isNull combined).

Definition invalid_df (combined : list Row) : list (option string) :=
  map select_corrupt_record (filter isNotNull combined).

(** ** Storage and the write cell *)

Module Storage.

(** The three destinations named in the last code cell.  [good] holds the
    rows of the CSV output, [bad] and [bad_history] the lines of the text
    outputs. *)
Record t : Type := mk
  { good : list (list Cell);
    bad : list string;
    bad_history : list string }.

Definition empty : t := mk [] [] [].

End Storage.

(** What the environment does to a write: it goes through, or it raises
    and leaves [leftover] at the destination. *)
Inductive WriteResult (A : Type) : Type :=
  | Succeeds
  | Faults (leftover : A).
Arguments Succeeds {A}.
Arguments Faults {A} leftover.

Record Env : Type := mkEnv
  { good_write : WriteResult (list (list Cell));
    bad_write : WriteResult (list string) }.

Definition no_faults : Env := mkEnv Succeeds Succeeds.

(** [df.write.mode("overwrite")]: the new content of the destination and
    whether the statement returned normally. *)
Definition overwrite {A : Type} (w : WriteResult A) (content : A) : A * bool :=
  match w with
  | Succeeds => (content, true)
  | Faults leftover => (leftover, false)
  end.

(** [.text(path)]: one line per row; a NULL cell gives an empty line. *)
Definition text (df : list (option string)) : list string :=
  map (fun c => match c with Some l => l | None => EmptyString end) df.

Inductive Status : Type :=
  | End_
  | Failed.

(** One run of the notebook on the new lines and the previously invalid
    lines.  The two writes are two statements of one cell: an exception in
    the first skips the second.  The write to [bad_history] is commented
    out in the notebook, so no statement touches that destination. *)
Definition run (env : Env) (s : StructType) (st : Storage.t)
  (new_data previous_invalid : list string) : Storage.t * Status :=
  let combined := combined_df s new_data previous_invalid in
  let valid := valid_df combined in
  let invalid := invalid_df combined in
  let (good', ok1) := overwrite (good_write env) valid in
  if ok1 then
    let (bad', ok2) := overwrite (bad_write env) (text invalid) in
    (Storage.mk good' bad' (Storage.bad_history st),
     if ok2 then End_ else Failed)
  else
    (Storage.mk good' (Storage.bad st) (Storage.bad_history st), Failed).

(** A run without storage faults. *)
Definition pipeline (s : StructType) (st : Storage.t)
  (new_data previous_invalid : list string) : Storage.t :=
  fst (run no_faults s st new_data previous_invalid).

(** A run with no new input, whose previously invalid lines are the lines
    of the [bad] destination ("in production, you would read from
    files"). *)
Definition rerun (s : StructType) (st : Storage.t) : Storage.t :=
  pipeline s st [] (Storage.bad st).

(** The lines of an RDD that end up as rows with / without a
    [_corrupt_record]: blank lines are in neither group. *)
Definition corruptLine (s : StructType) (l : string) : bool :=
  negb (isBlank l) && isNotNull (parseLine (asNullable s) l).

Definition validLine (s : StructType) (l : string) : bool :=
  negb (isBlank l) && isNull (parseLine (asNullable s) l).

(** ** Properties used in the statements *)

(** The reading of "every non-nullable field type-coerces successfully":
    the pieces that land in columns declared non-nullable convert. *)
Definition required_fields_coerce (fields : list StructField)
  (tokens : list string) : Prop :=
  Forall (fun ft => nullable (fst ft) = false ->
                    makeConverter (fst ft) (snd ft) <> None)
         (combine fields tokens).

(** Every piece converts, and [cells] are the converted values. *)
Definition all_fields_coerce (fields : list StructField)
  (tokens : list string) (cells : list Cell) : Prop :=
  Forall2 (fun ft c => makeConverter (fst ft) (snd ft) = Some c)
          (combine fields tokens) cells.

(** The line breaks the field count or some piece fails to convert. *)
Definition violates (s : StructType) (l : string) : Prop :=
  List.length (tokenize l) <> List.length (dataSchema s) \/
  Exists (fun ft => makeConverter (fst ft) (snd ft) = None)
         (combine (dataSchema s) (tokenize l)).

(** An attempt count that a run increments: some count readable from the
    persisted storage and the pending entry that is one higher after the
    run than before it. *)
Definition attempt_count_incremented (before after : Storage.t)
  (entry : string) : Prop :=
  exists attempts : Storage.t -> string -> nat,
    attempts after entry = S (attempts before entry).


(** The tokenizer's limit on the number of columns of a line. *)
Definition maxColumns : Z := 20480.

(** A printable ASCII character other than the quote character (34) and
    the escape character (92). *)
Definition plainChar (c : ascii) : bool :=
  let n := nat_of_ascii c in
  Nat.leb 32 n && Nat.leb n 126 && negb (Nat.eqb n 34) && negb (Nat.eqb n 92).

Fixpoint plainChars (l : string) : bool :=
  match l with
  | EmptyString => true
  | String c rest => plainChar c && plainChars rest
  end.

(** The lines on which [tokenize] and [toInt] are the reader's tokenizer
    and integer converter. *)
Definition plainb (l : string) : bool :=
  plainChars l && (Z.of_nat (List.length (tokenize l)) <=? maxColumns)%Z.

Definition plain (l : string) : Prop := plainb l = true.

(** The positions of [rows], counted from [i], at which [p] holds. *)
Fixpoint positions {A : Type} (p : A -> bool) (rows : list A) (i : nat)
  : list nat :=
  match rows with
  | [] => []
  | r :: rs =>
      if p r then i :: positions p rs (S i) else positions p rs (S i)
  end.

(** The range of [IntegerType]: a 32-bit signed integer. *)
Definition int32 (z : Z) : Prop :=
  (-2147483648 <= z <= 2147483647)%Z.

(** A cell fits its column: NULL, or a value of the column's type (a
    32-bit integer, or a non-empty string, the empty one being NULL). *)
Definition cell_has_type (f : StructField) (c : Cell) : Prop :=
  match c with
  | None => True
  | Some (VInt z) => dataType f = IntegerType /\ int32 z
  | Some (VStr t) => dataType f = StringType /\ t <> EmptyString
  end.

(** ** Sanity checks against the notebook's printed tables *)

Example combined_df_notebook :
  combined_df schema new_data_rdd previous_invalid_rdd =
  [ mkRow [Some (VInt 1); Some (VStr "John Doe"); Some (VInt 30)] None;
    mkRow [Some (VInt 2); Some (VStr "Jane Smith"); Some (VInt 25)] None;
    mkRow [Some (VInt 3); Some (VStr "Bob Johnson"); Some (VInt 35)] None;
    mkRow [Some (VInt 4); Some (VStr "Alice Johnson"); None]
          (Some "4,Alice Johnson,twenty");
    mkRow [Some (VInt 5); Some (VStr "45"); None]
          (Some "5,45,Charlie Brown") ].
Proof. reflexivity. Qed.

Example valid_df_notebook :
  valid_df (combined_df schema new_data_rdd previous_invalid_rdd) =
  [ [Some (VInt 1); Some (VStr "John Doe"); Some (VInt 30)];
    [Some (VInt 2); Some (VStr "Jane Smith"); Some (VInt 25)];
    [Some (VInt 3); Some (VStr "Bob Johnson"); Some (VInt 35)] ].
Proof. reflexivity. Qed.

Example invalid_df_notebook :
  invalid_df (combined_df schema new_data_rdd previous_invalid_rdd) =
  [ Some "4,Alice Johnson,twenty"; Some "5,45,Charlie Brown" ].
Proof. reflexivity. Qed.

Example toInt_examples :
  toInt "30" = Some 30%Z /\ toInt "-7" = Some (-7)%Z /\ toInt "twenty" = None /\
  toInt "" = None /\ toInt "-" = None /\ toInt " 30" = None /\
  toInt "2147483647" = Some 2147483647%Z /\ toInt "2147483648" = None /\
  toInt "-2147483648" = Some (-2147483648)%Z.
Proof. repeat split; reflexivity. Qed.

Example plain_examples :
  plainb "4,Alice Johnson,twenty" = true /\
  plainb "" = true /\
  plainb (String (ascii_of_nat 34) "John") = false /\
  plainb (String (ascii_of_nat 9) "") = false /\
  plainb (String (ascii_of_nat 10) "") = false /\
  plainb (String (ascii_of_nat 217) (String (ascii_of_nat 163) "")) = false.
Proof. repeat split; reflexivity. Qed.

Example tokenize_examples :
  tokenize "1,John Doe,30" = ["1"; "John Doe"; "30"] /\
  tokenize "" = [""] /\ tokenize "a,,b," = ["a"; ""; "b"; ""].
Proof. repeat split; reflexivity. Qed.

(** ** Facts about the reader *)

Section ReaderFacts.

Variable s : StructType.

Lemma isNotNull_negb (r : Row) : isNotNull r = negb (isNull r).
Proof. unfold isNotNull, isNull. destruct (corrupt_record r); reflexivity. Qed.

Lemma data_parseLine (l : string) :
  data (parseLine s l) = fst (convert (dataSchema s) (tokenize l)).
Proof.
  unfold parseLine. destruct (convert (dataSchema s) (tokenize l)); reflexivity.
Qed.

Lemma corrupt_record_parseLine (l : string) :
  corrupt_record (parseLine s l) =
  if negb (Nat.eqb (List.length (tokenize l)) (List.length (dataSchema s)))
     || snd (convert (dataSchema s) (tokenize l))
  then Some l else None.
Proof.
  unfold parseLine. destruct (convert (dataSchema s) (tokenize l)); reflexivity.
Qed.

(** The raw text kept for a malformed line is the line itself. *)
Lemma corrupt_record_raw (l raw : string) :
  corrupt_record (parseLine s l) = Some raw -> raw = l.
Proof.
  rewrite corrupt_record_parseLine.
  destruct (_ || _); [intros H; injection H; auto | discriminate].
Qed.

Lemma isNotNull_corrupt_record (l : string) :
  isNotNull (parseLine s l) = true -> corrupt_record (parseLine s l) = Some l.
Proof.
  unfold isNotNull. destruct (corrupt_record (parseLine s l)) as [raw|] eqn:E.
  - intros _. f_equal. exact (corrupt_record_raw _ _ E).
  - discriminate.
Qed.

End ReaderFacts.

(** A failed conversion raises the bad-record flag. *)
Lemma convert_failure (fields : list StructField) :
  forall tokens,
    Exists (fun ft => makeConverter (fst ft) (snd ft) = None)
           (combine fields tokens) ->
    snd (convert fields tokens) = true.
Proof.
  induction fields as [|f fs IH]; intros tokens H.
  - inversion H.
  - destruct tokens as [|t ts]; [inversion H|].
    cbn [combine] in H. cbn [convert tl hd_error convertField].
    destruct (convert fs ts) as [cells bad'] eqn:E.
    inversion H as [? ? Hd | ? ? Htl]; subst.
    + cbn [fst snd] in Hd. rewrite Hd. reflexivity.
    + specialize (IH ts Htl). rewrite E in IH. cbn in IH. subst bad'.
      destruct (makeConverter f t); cbn; auto using orb_true_r.
Qed.

(** When every piece converts, the cells are the converted values and the
    flag stays down. *)
Lemma convert_success (fields : list StructField) :
  forall tokens cells,
    List.length fields <= List.length tokens ->
    Forall2 (fun ft c => makeConverter (fst ft) (snd ft) = Some c)
            (combine fields tokens) cells ->
    convert fields tokens = (cells, false).
Proof.
  induction fields as [|f fs IH]; intros tokens cells Hlen H.
  - cbn in H. inversion H. reflexivity.
  - destruct tokens as [|t ts]; [cbn in Hlen; lia|].
    cbn [combine] in H. inversion H as [|? c ? cs Hc Hcs]; subst.
    cbn [fst snd] in Hc. cbn [convert tl hd_error convertField]. rewrite Hc.
    rewrite (IH ts cs); [reflexivity | cbn in Hlen; lia | assumption].
Qed.

(** The cell of column [i] depends on the piece at position [i] alone. *)
Lemma convert_nth (fields : list StructField) :
  forall tokens i f,
    nth_error fields i = Some f ->
    nth_error (fst (convert fields tokens)) i =
    Some (fst (convertField f (nth_error tokens i))).
Proof.
  induction fields as [|f0 fs IH]; intros tokens i f Hf.
  - destruct i; discriminate.
  - cbn [convert].
    destruct (convertField f0 (hd_error tokens)) as [cell bad] eqn:E0.
    destruct (convert fs (tl tokens)) as [cells bad'] eqn:E.
    cbn [fst]. destruct i as [|i].
    + cbn in Hf. injection Hf as <-. cbn [nth_error].
      destruct tokens; cbn [hd_error nth_error] in *; rewrite E0; reflexivity.
    + cbn [nth_error] in Hf |- *. specialize (IH (tl tokens) i f Hf).
      rewrite E in IH. cbn [fst] in IH. rewrite IH.
      destruct tokens as [|t ts]; [destruct i|]; reflexivity.
Qed.

(** ** Facts about the classifier and the run *)

Lemma filter_map_comm {A B : Type} (f : A -> B) (p : B -> bool) (l : list A) :
  filter p (map f l) = map f (filter (fun x => p (f x)) l).
Proof.
  induction l as [|a l IH]; cbn; [reflexivity|].
  destruct (p (f a)); cbn; rewrite IH; reflexivity.
Qed.

Lemma filter_filter {A : Type} (p q : A -> bool) (l : list A) :
  filter p (filter q l) = filter (fun x => q x && p x) l.
Proof.
  induction l as [|a l IH]; cbn; [reflexivity|].
  destruct (q a); cbn; [destruct (p a)|]; rewrite IH; reflexivity.
Qed.

Lemma filter_idem {A : Type} (p : A -> bool) (l : list A) :
  filter p (filter p l) = filter p l.
Proof.
  rewrite filter_filter. apply filter_ext. intros a. destruct (p a); reflexivity.
Qed.

Lemma valid_df_csv (s : StructType) (rdd : list string) :
  valid_df (csv s rdd) =
  map (fun l => data (parseLine (asNullable s) l)) (filter (validLine s) rdd).
Proof.
  unfold valid_df, csv, validLine. cbv zeta.
  rewrite filter_map_comm, filter_filter, map_map. reflexivity.
Qed.

Lemma text_invalid_df_csv (s : StructType) (rdd : list string) :
  text (invalid_df (csv s rdd)) = filter (corruptLine s) rdd.
Proof.
  unfold invalid_df, csv, text, corruptLine. cbv zeta.
  induction rdd as [|l rdd IH]; cbn; [reflexivity|].
  destruct (isBlank l); cbn; [exact IH|].
  destruct (isNotNull (parseLine (asNullable s) l)) eqn:E; cbn; [|exact IH].
  unfold select_corrupt_record at 1.
  rewrite (isNotNull_corrupt_record _ _ E), IH. reflexivity.
Qed.

Lemma valid_df_app (a b : list Row) :
  valid_df (a ++ b) = valid_df a ++ valid_df b.
Proof. unfold valid_df. rewrite filter_app, map_app. reflexivity. Qed.

Lemma invalid_df_app (a b : list Row) :
  invalid_df (a ++ b) = invalid_df a ++ invalid_df b.
Proof. unfold invalid_df. rewrite filter_app, map_app. reflexivity. Qed.

(** The outputs of a run in terms of its input lines. *)
Lemma valid_df_combined (s : StructType) (n p : list string) :
  valid_df (combined_df s n p) =
  map (fun l => data (parseLine (asNullable s) l))
      (filter (validLine s) (n ++ p)).
Proof.
  unfold combined_df, union.
  rewrite valid_df_app, !valid_df_csv, filter_app, map_app. reflexivity.
Qed.

Lemma text_invalid_df_combined (s : StructType) (n p : list string) :
  text (invalid_df (combined_df s n p)) = filter (corruptLine s) (n ++ p).
Proof.
  unfold combined_df, union.
  rewrite invalid_df_app. unfold text at 1. rewrite map_app.
  fold (text (invalid_df (csv s n))). fold (text (invalid_df (csv s p))).
  rewrite !text_invalid_df_csv, filter_app. reflexivity.
Qed.

Lemma pipeline_eq (s : StructType) (st : Storage.t) (n p : list string) :
  pipeline s st n p =
  Storage.mk (map (fun l => data (parseLine (asNullable s) l))
                  (filter (validLine s) (n ++ p)))
             (filter (corruptLine s) (n ++ p))
             (Storage.bad_history st).
Proof.
  unfold pipeline, run. cbn.
  rewrite valid_df_combined, text_invalid_df_combined. reflexivity.
Qed.

(** A pending line is an input line that the reader flagged. *)
Lemma pending_is_corrupt (s : StructType) (st : Storage.t) (n p : list string)
  (l : string) :
  In l (Storage.bad (pipeline s st n p)) <->
  In l (n ++ p) /\ corruptLine s l = true.
Proof. rewrite pipeline_eq. cbn [Storage.bad]. apply filter_In. Qed.

Lemma csv_single (s : StructType) (l : string) :
  isBlank l = false -> csv s [l] = [parseLine (asNullable s) l].
Proof. intros H. unfold csv. cbn. rewrite H. reflexivity. Qed.

(** ** The record parser *)

(** C1, as stated, fails on the notebook's own data: in the notebook's
    schema every column is nullable, so the line "4,Alice Johnson,twenty"
    has the right field count and no non-nullable field at all, yet the
    reader flags it as corrupt because the nullable [age] does not
    convert. *)
Lemma nullable_field_failure_is_corrupt :
  let l := "4,Alice Johnson,twenty" in
  List.length (tokenize l) = List.length (dataSchema schema) /\
  required_fields_coerce (dataSchema schema) (tokenize l) /\
  csv schema [l] =
    [ mkRow [Some (VInt 4); Some (VStr "Alice Johnson"); None] (Some l) ] /\
  valid_df (csv schema [l]) = [] /\
  invalid_df (csv schema [l]) = [Some l].
Proof.
  cbv zeta. split; [reflexivity|]. split; [|repeat split; reflexivity].
  unfold required_fields_coerce. cbn.
  repeat constructor; cbn; discriminate.
Qed.

(** C1 (amended): a line that is not blank and not quoted ([plain]), whose
    field count matches the schema and whose every field, nullable or
    not, converts, is read as one Valid row whose cells are the converted
    values, and it is in the Valid output and not in the Corrupt one; and
    for the input ["1,John,30", "2,Jane,twenty"] under the notebook's
    schema the Valid output is exactly the one row (1, "John", 30), the
    other line being the only Corrupt one. *)
Theorem parse_valid_roundtrip (s : StructType) (l : string) (cells : list Cell) :
  plain l ->
  isBlank l = false ->
  List.length (tokenize l) = List.length (dataSchema (asNullable s)) ->
  all_fields_coerce (dataSchema (asNullable s)) (tokenize l) cells ->
  csv s [l] = [mkRow cells None] /\
  valid_df (csv s [l]) = [cells] /\
  invalid_df (csv s [l]) = [] /\
  valid_df (combined_df schema ["1,John,30"; "2,Jane,twenty"] []) =
    [ [Some (VInt 1); Some (VStr "John"); Some (VInt 30)] ] /\
  invalid_df (combined_df schema ["1,John,30"; "2,Jane,twenty"] []) =
    [ Some "2,Jane,twenty" ].
Proof.
  intros _ Hb Hlen Hall.
  assert (E : parseLine (asNullable s) l = mkRow cells None).
  { unfold parseLine.
    rewrite (convert_success _ _ cells); [| lia | exact Hall].
    rewrite Hlen, Nat.eqb_refl. reflexivity. }
  rewrite (csv_single _ _ Hb), E. repeat split; reflexivity.
Qed.

Lemma parse_valid_roundtrip_witness :
  csv schema ["3,Bob Johnson,35"] =
    [ mkRow [Some (VInt 3); Some (VStr "Bob Johnson"); Some (VInt 35)] None ].
Proof.
  apply (parse_valid_roundtrip schema "3,Bob Johnson,35").
  - reflexivity.
  - reflexivity.
  - reflexivity.
  - unfold all_fields_coerce. cbn. repeat constructor.
Defined.

(** C2, as stated, fails on blank lines: the empty line and the line of
    two spaces have one piece where the notebook's schema has three data
    columns, so they violate the field count, but the reader skips them:
    no row is produced, Corrupt or Valid, and their text is kept
    nowhere. *)
Lemma blank_line_yields_no_record :
  violates (asNullable schema) "" /\
  csv schema [""] = [] /\
  violates (asNullable schema) "  " /\
  csv schema ["  "] = [] /\
  invalid_df (csv schema ["  "]) = [] /\
  valid_df (csv schema ["  "]) = [].
Proof.
  repeat split; try reflexivity; left; cbn; lia.
Qed.

(** C2 (amended): a line that is not quoted ([plain]) and violates the
    field count or a type constraint is, when it is not blank, read as
    one Corrupt row whose [_corrupt_record] is the input line itself,
    character for character, and that text is what the Corrupt output
    holds; when it is blank, the reader skips it and there is no row. *)
Theorem parse_corrupt_keeps_raw (s : StructType) (l : string) :
  plain l ->
  violates (asNullable s) l ->
  (isBlank l = false ->
   (exists cells, csv s [l] = [mkRow cells (Some l)]) /\
   invalid_df (csv s [l]) = [Some l] /\
   valid_df (csv s [l]) = []) /\
  (isBlank l = true -> csv s [l] = []).
Proof.
  intros _ H.
  assert (E : corrupt_record (parseLine (asNullable s) l) = Some l).
  { rewrite corrupt_record_parseLine. destruct H as [Hlen | Hbad].
    - apply Nat.eqb_neq in Hlen. rewrite Hlen. reflexivity.
    - rewrite (convert_failure _ _ Hbad), orb_true_r. reflexivity. }
  split; intros Hb.
  - rewrite (csv_single _ _ Hb).
    destruct (parseLine (asNullable s) l) as [cells c]. cbn in E. subst c.
    split; [exists cells; reflexivity|]. split; reflexivity.
  - unfold csv. cbn. rewrite Hb. reflexivity.
Qed.

Lemma parse_corrupt_keeps_raw_witness :
  invalid_df (csv schema ["5,45,Charlie Brown"]) = [Some "5,45,Charlie Brown"].
Proof.
  apply (parse_corrupt_keeps_raw schema "5,45,Charlie Brown").
  - reflexivity.
  - right. cbn.
    apply Exists_cons_tl, Exists_cons_tl, Exists_cons_hd. reflexivity.
  - reflexivity.
Defined.

(** ** Re-running the pipeline *)

(** C3: two consecutive runs with no new input, each reading the pending
    lines the previous run wrote, leave the same pending set: the second
    run writes exactly the lines the first one wrote, in the same number
    and order, none duplicated and none lost. *)
Theorem rerun_pending_idempotent (s : StructType) (st : Storage.t) :
  let st1 := rerun s st in
  let st2 := rerun s st1 in
  Storage.bad st2 = Storage.bad st1 /\
  List.length (Storage.bad st2) = List.length (Storage.bad st1).
Proof.
  cbv zeta. unfold rerun. rewrite !pipeline_eq. cbn [Storage.bad app].
  rewrite filter_idem. auto.
Qed.

(** ** Storage faults *)




(** ** The classifier *)

(** A position listed by [positions] holds a row that passes the filter. *)
Lemma positions_In {A : Type} (p : A -> bool) (rows : list A) :
  forall k i, In i (positions p rows k) ->
    exists r, k <= i /\ nth_error rows (i - k) = Some r /\ p r = true.
Proof.
  induction rows as [|r rs IH]; intros k i H; cbn [positions] in H.
  - destruct H.
  - assert (Hrest : In i (positions p rs (S k)) ->
                    exists r0, k <= i /\ nth_error (r :: rs) (i - k) = Some r0
                               /\ p r0 = true).
    { intros Hin. destruct (IH _ _ Hin) as [r0 [Hk [Hn Hp]]].
      exists r0. split; [lia|]. split; [|exact Hp].
      replace (i - k) with (S (i - S k)) by lia. exact Hn. }
    destruct (p r) eqn:Pr; [|exact (Hrest H)].
    destruct H as [<- | H]; [|exact (Hrest H)].
    exists r. rewrite Nat.sub_diag. auto.
Qed.

(** The filtered rows are the rows at the listed positions, in order. *)
Lemma positions_map {A B : Type} (p : A -> bool) (f : A -> B) (rows : list A) :
  forall pre,
    Forall2 (fun i out => option_map f (nth_error (pre ++ rows) i) = Some out)
            (positions p rows (List.length pre)) (map f (filter p rows)).
Proof.
  induction rows as [|r rs IH]; intros pre; cbn [positions filter].
  - constructor.
  - specialize (IH (pre ++ [r])).
    rewrite <- app_assoc, length_app in IH. cbn [app List.length] in IH.
    rewrite Nat.add_1_r in IH.
    destruct (p r); [|exact IH].
    cbn [map]. constructor; [|exact IH].
    rewrite nth_error_app2, Nat.sub_diag by lia. reflexivity.
Qed.

(** C5, as stated, fails for a run whose quarantine write faults: with the
    corrected line "5,Charlie Brown,45" waiting in the pending set, the
    run writes its row to the Valid output, then the write of the pending
    set raises and leaves that set as it was, so after the run the record
    is in both. *)
Lemma failed_run_record_in_both :
  let st := Storage.mk [] ["5,Charlie Brown,45"] [] in
  let env := mkEnv Succeeds (Faults (Storage.bad st)) in
  let r := run env schema st [] (Storage.bad st) in
  snd r = Failed /\
  Storage.good (fst r) =
    [ [Some (VInt 5); Some (VStr "Charlie Brown"); Some (VInt 45)] ] /\
  Storage.bad (fst r) = ["5,Charlie Brown,45"].
Proof. cbv zeta. repeat split; reflexivity. Qed.

(** C5 (amended): for every decoded batch the classifier's two outputs are
    mutually exclusive: the Valid output is the rows at the positions
    that pass [isNull], the Corrupt output the raw texts at the positions
    that pass [isNotNull], and no position is in both lists; and after a
    run whose two writes both succeed, the Valid output and the pending
    set in storage are exactly these two outputs, so no input record is
    in both. *)
Theorem valid_and_pending_exclusive (env : Env) (s : StructType)
  (st : Storage.t) (n p : list string) :
  let combined := combined_df s n p in
  let accepted := positions isNull combined 0 in
  let rejected := positions isNotNull combined 0 in
  Forall2 (fun i row =>
             option_map drop_corrupt_record (nth_error combined i) = Some row)
          accepted (valid_df combined) /\
  Forall2 (fun i raw =>
             option_map select_corrupt_record (nth_error combined i) = Some raw)
          rejected (invalid_df combined) /\
  (forall i, ~ (In i accepted /\ In i rejected)) /\
  (snd (run env s st n p) = End_ ->
   Storage.good (fst (run env s st n p)) = valid_df combined /\
   Storage.bad (fst (run env s st n p)) = text (invalid_df combined)).
Proof.
  cbv zeta. split; [|split; [|split]].
  - exact (positions_map isNull drop_corrupt_record _ []).
  - exact (positions_map isNotNull select_corrupt_record _ []).
  - intros i [H1 H2].
    apply positions_In in H1, H2.
    destruct H1 as [r1 [_ [N1 P1]]]. destruct H2 as [r2 [_ [N2 P2]]].
    rewrite N1 in N2. injection N2 as <-.
    rewrite isNotNull_negb, P1 in P2. discriminate.
  - unfold run. destruct env as [[|g] [|b]]; cbn; intros H;
      try discriminate; auto.
Qed.

Lemma valid_and_pending_exclusive_witness :
  Storage.good (fst (run no_faults schema Storage.empty
                         new_data_rdd previous_invalid_rdd)) =
    valid_df (combined_df schema new_data_rdd previous_invalid_rdd) /\
  Storage.bad (fst (run no_faults schema Storage.empty
                        new_data_rdd previous_invalid_rdd)) =
    text (invalid_df (combined_df schema new_data_rdd previous_invalid_rdd)).
Proof.
  apply (valid_and_pending_exclusive no_faults schema Storage.empty
           new_data_rdd previous_invalid_rdd).
  reflexivity.
Defined.

(** C10: the two filters are complements, every row of a decoded batch is
    in one of the two outputs, and the numbers of valid and of corrupt
    rows add up to the number of rows. *)
Theorem classification_exhaustive (rows : list Row) :
  (forall r, isNotNull r = negb (isNull r)) /\
  (forall r, In r rows ->
             In r (filter isNull rows) \/ In r (filter isNotNull rows)) /\
  List.length (valid_df rows) + List.length (invalid_df rows) =
    List.length rows.
Proof.
  split; [exact isNotNull_negb|]. split.
  - intros r Hin. rewrite !filter_In, isNotNull_negb.
    destruct (isNull r); auto.
  - unfold valid_df, invalid_df. rewrite !length_map.
    induction rows as [|r rows IH]; cbn; [reflexivity|].
    rewrite isNotNull_negb. destruct (isNull r); cbn; lia.
Qed.

Lemma classification_exhaustive_witness :
  let rows := combined_df schema new_data_rdd previous_invalid_rdd in
  let r := parseLine (asNullable schema) "5,45,Charlie Brown" in
  In r (filter isNull rows) \/ In r (filter isNotNull rows).
Proof.
  cbv zeta.
  apply (classification_exhaustive
           (combined_df schema new_data_rdd previous_invalid_rdd)).
  vm_compute. auto 10.
Defined.

(** ** Reprocessing a shifted record *)

(** C6, as stated, fails: the pending entry is the bare text line, and the
    storage after the run is the storage before it, so nothing the run
    persists can carry a count that went up by one. *)
Lemma shifted_record_no_attempt_count :
  let before := Storage.mk [] ["5,45,Charlie Brown"] [] in
  let after := rerun schema before in
  after = before /\
  ~ attempt_count_incremented before after "5,45,Charlie Brown".
Proof.
  cbv zeta.
  assert (E : rerun schema (Storage.mk [] ["5,45,Charlie Brown"] []) =
              Storage.mk [] ["5,45,Charlie Brown"] []) by reflexivity.
  split; [exact E|].
  intros [attempts H]. rewrite E in H. lia.
Qed.

(** C6 (amended): with prior pending ["5,45,Charlie Brown"], no new input
    and the notebook's schema, a run leaves the pending set equal to
    ["5,45,Charlie Brown"], stored as the bare raw line with no attempt
    count, and its Valid output is empty; whatever the good output and
    the history held before. *)
Theorem shifted_record_stays_pending (g : list (list Cell)) (h : list string) :
  rerun schema (Storage.mk g ["5,45,Charlie Brown"] h) =
  Storage.mk [] ["5,45,Charlie Brown"] h.
Proof. reflexivity. Qed.

(** ** What a Corrupt record carries *)

(** C7, as stated, fails on the notebook's own table: the row decoded from
    "4,Alice Johnson,twenty" is Corrupt and still has [id] and [name]
    populated; only [age] is NULL. *)
Lemma corrupt_row_keeps_typed_fields :
  exists r,
    csv schema ["4,Alice Johnson,twenty"] = [r] /\
    isNotNull r = true /\
    data r = [Some (VInt 4); Some (VStr "Alice Johnson"); None] /\
    ~ Forall (fun c => c = None) (data r).
Proof.
  eexists. split; [reflexivity|]. split; [reflexivity|]. split; [reflexivity|].
  intros H. inversion H as [|? ? Hc _]. discriminate Hc.
Qed.

(** C7 (amended): every record of the classifier's Corrupt output
    ([invalid_df]) is the single [_corrupt_record] column, holding the raw
    text of an input line that the reader flagged, and no typed field.
    The decoded row itself, for a line that is not quoted ([plain]),
    keeps, column by column, the value of every piece that converts, and
    has NULL where the piece is missing or fails to convert. *)
Theorem invalid_df_only_raw (s : StructType) (n p : list string) :
  (forall c, In c (invalid_df (combined_df s n p)) ->
     exists l, c = Some l /\ In l (n ++ p) /\
               corrupt_record (parseLine (asNullable s) l) = Some l) /\
  (forall l i f, plain l ->
     nth_error (dataSchema (asNullable s)) i = Some f ->
     nth_error (data (parseLine (asNullable s) l)) i =
     Some (fst (convertField f (nth_error (tokenize l) i)))).
Proof.
  split.
  - intros c. unfold invalid_df, combined_df, union, csv. cbv zeta.
    rewrite <- map_app, <- filter_app, in_map_iff.
    intros [r [Hc Hr]]. apply filter_In in Hr. destruct Hr as [Hr Hnn].
    apply in_map_iff in Hr. destruct Hr as [l [Hl Hin]]. subst r.
    apply filter_In in Hin. destruct Hin as [Hin _].
    exists l. unfold select_corrupt_record in Hc.
    rewrite (isNotNull_corrupt_record _ _ Hnn) in Hc.
    auto using isNotNull_corrupt_record.
  - intros l i f _ Hf. rewrite data_parseLine. now apply convert_nth.
Qed.

Lemma invalid_df_only_raw_witness :
  (exists l, Some "4,Alice Johnson,twenty" = Some l /\
             In l (new_data_rdd ++ previous_invalid_rdd) /\
             corrupt_record (parseLine (asNullable schema) l) = Some l) /\
  nth_error (data (parseLine (asNullable schema) "4,Alice Johnson,twenty")) 2 =
    Some (fst (convertField (mkField "age" IntegerType true)
                            (nth_error (tokenize "4,Alice Johnson,twenty") 2))).
Proof.
  split.
  - apply (invalid_df_only_raw schema new_data_rdd previous_invalid_rdd).
    vm_compute. auto.
  - apply (invalid_df_only_raw schema new_data_rdd previous_invalid_rdd).
    + reflexivity.
    + reflexivity.
Defined.

(** ** History *)

(** C8, as stated, fails: the write to the history is commented out in
    the notebook, so after a run on the notebook's data the two corrupt
    lines are pending but neither is in the history. *)
Lemma corrupt_lines_not_archived :
  let st' := pipeline schema Storage.empty new_data_rdd previous_invalid_rdd in
  Storage.bad st' = ["4,Alice Johnson,twenty"; "5,45,Charlie Brown"] /\
  Storage.bad_history st' = [] /\
  ~ In "5,45,Charlie Brown" (Storage.bad_history st') /\
  ~ In "4,Alice Johnson,twenty" (Storage.bad_history st').
Proof.
  cbv zeta. split; [reflexivity|]. split; [reflexivity|].
  split; intros H; exact H.
Qed.

(** C8 (amended): no run writes the history dataset: after every run,
    successful or failed, the history is exactly what it was before, so
    it never shrinks and nothing is archived into it. *)
Theorem history_untouched (env : Env) (s : StructType) (st : Storage.t)
  (n p : list string) :
  Storage.bad_history (fst (run env s st n p)) = Storage.bad_history st.
Proof.
  unfold run. destruct (overwrite (good_write env) _) as [g' [|]].
  - destruct (overwrite (bad_write env) _) as [b' ok2]. reflexivity.
  - reflexivity.
Qed.

(** ** Rescue *)




(** ** Further properties of the reader *)

Lemma digit_of_range (c : ascii) (d : Z) :
  digit_of c = Some d -> (0 <= d <= 9)%Z.
Proof.
  unfold digit_of.
  destruct ((48 <=? Z.of_nat (nat_of_ascii c))
            && (Z.of_nat (nat_of_ascii c) <=? 57))%Z eqn:E; [|discriminate].
  intros H. injection H as <-. apply andb_prop in E. destruct E as [E1 E2].
  apply Z.leb_le in E1, E2. lia.
Qed.

Lemma digits_ge (s : string) :
  forall acc n, (0 <= acc)%Z -> digits s acc = Some n -> (acc <= n)%Z.
Proof.
  induction s as [|c rest IH]; intros acc n Hacc H; cbn [digits] in H.
  - injection H as <-. lia.
  - destruct (digit_of c) as [d|] eqn:Ed; [|discriminate].
    apply digit_of_range in Ed. apply IH in H; lia.
Qed.

Lemma magnitude_nonneg (s : string) (n : Z) :
  magnitude s = Some n -> (0 <= n)%Z.
Proof.
  destruct s; cbn [magnitude]; [discriminate|].
  apply digits_ge. lia.
Qed.

Lemma toInt_int32 (s : string) (z : Z) : toInt s = Some z -> int32 z.
Proof.
  assert (Hpos : forall t, match magnitude t with
                           | Some n => if (n <=? 2147483647)%Z then Some n else None
                           | None => None
                           end = Some z -> int32 z).
  { intros t H. destruct (magnitude t) as [n|] eqn:E; [|discriminate].
    apply magnitude_nonneg in E.
    destruct (n <=? 2147483647)%Z eqn:L; [|discriminate].
    injection H as <-. apply Z.leb_le in L. unfold int32. lia. }
  assert (Hneg : forall t, match magnitude t with
                           | Some n => if (n <=? 2147483648)%Z then Some (- n)%Z else None
                           | None => None
                           end = Some z -> int32 z).
  { intros t H. destruct (magnitude t) as [n|] eqn:E; [|discriminate].
    apply magnitude_nonneg in E.
    destruct (n <=? 2147483648)%Z eqn:L; [|discriminate].
    injection H as <-. apply Z.leb_le in L. unfold int32. lia. }
  unfold toInt. destruct s as [|c rest]; [apply (Hpos EmptyString)|].
  destruct c as [[] [] [] [] [] [] [] []];
    solve [apply Hpos | apply Hneg].
Qed.

Lemma makeConverter_has_type (f : StructField) (t : string) (c : Cell) :
  makeConverter f t = Some c -> cell_has_type f c.
Proof.
  unfold makeConverter. destruct (String.eqb t EmptyString) eqn:E.
  - destruct (nullable f); [|discriminate]. intros H. injection H as <-. exact I.
  - apply String.eqb_neq in E. destruct (dataType f) eqn:T.
    + destruct (toInt t) as [z|] eqn:Z; [|discriminate].
      intros H. injection H as <-. cbn. split; [exact T|].
      exact (toInt_int32 _ _ Z).
    + intros H. injection H as <-. cbn. auto.
Qed.

Lemma convertField_has_type (f : StructField) (token : option string) :
  cell_has_type f (fst (convertField f token)).
Proof.
  unfold convertField. destruct token as [t|]; [|exact I].
  destruct (makeConverter f t) as [c|] eqn:E; [|exact I].
  exact (makeConverter_has_type _ _ _ E).
Qed.

Lemma convert_has_type (fields : list StructField) :
  forall tokens, Forall2 cell_has_type fields (fst (convert fields tokens)).
Proof.
  induction fields as [|f fs IH]; intros tokens; cbn [convert].
  - constructor.
  - pose proof (convertField_has_type f (hd_error tokens)) as H.
    destruct (convertField f (hd_error tokens)) as [cell bad].
    specialize (IH (tl tokens)).
    destruct (convert fs (tl tokens)) as [cells bad'].
    constructor; assumption.
Qed.

(** A raised flag has a cause: a missing piece or a piece that fails. *)
Lemma convert_flag_cause (fields : list StructField) :
  forall tokens,
    snd (convert fields tokens) = true ->
    List.length tokens < List.length fields \/
    Exists (fun ft => makeConverter (fst ft) (snd ft) = None)
           (combine fields tokens).
Proof.
  induction fields as [|f fs IH]; intros tokens H; cbn [convert] in H.
  - discriminate.
  - destruct tokens as [|t ts]; [left; cbn; lia|].
    cbn [hd_error tl convertField] in H. cbn [combine].
    destruct (makeConverter f t) as [c|] eqn:E.
    + specialize (IH ts). destruct (convert fs ts) as [cells bad'].
      cbn in H. destruct (IH H) as [L | X].
      * left. cbn. lia.
      * right. now apply Exists_cons_tl.
    + right. apply Exists_cons_hd. exact E.
Qed.

(** A lowered flag means every column had a piece and every piece
    converted to the cell that is stored. *)
Lemma convert_flag_down (fields : list StructField) :
  forall tokens,
    snd (convert fields tokens) = false ->
    List.length fields <= List.length tokens /\
    Forall2 (fun ft c => makeConverter (fst ft) (snd ft) = Some c)
            (combine fields tokens) (fst (convert fields tokens)).
Proof.
  induction fields as [|f fs IH]; intros tokens H; cbn [convert] in H |- *.
  - split; [cbn; lia | constructor].
  - destruct tokens as [|t ts]; cbn [hd_error tl convertField] in H |- *.
    + destruct (convert fs []); discriminate.
    + destruct (makeConverter f t) as [c|] eqn:E.
      * specialize (IH ts). destruct (convert fs ts) as [cells bad'].
        cbn in H. destruct (IH H) as [L F]. cbn [fst combine]. split.
        -- cbn. lia.
        -- constructor; assumption.
      * destruct (convert fs ts); discriminate.
Qed.

(** X3: every row has the shape of the schema, Corrupt or not: it has
    exactly one cell per data column, however many pieces the line has,
    and each cell is NULL or a value of its column's type. *)
Theorem row_fits_schema (s : StructType) (l : string) :
  List.length (data (parseLine s l)) = List.length (dataSchema s) /\
  Forall2 cell_has_type (dataSchema s) (data (parseLine s l)).
Proof.
  rewrite data_parseLine.
  pose proof (convert_has_type (dataSchema s) (tokenize l)) as H.
  split; [|exact H]. symmetry. exact (Forall2_length H).
Qed.

(** ** Further properties of the classifier and the run *)

Lemma csv_app (s : StructType) (a b : list string) :
  csv s (a ++ b) = csv s a ++ csv s b.
Proof. unfold csv. cbv zeta. rewrite filter_app, map_app. reflexivity. Qed.

Lemma count_occ_filter (p : string -> bool) (l : list string) (x : string) :
  count_occ string_dec (filter p l) x =
  if p x then count_occ string_dec l x else 0.
Proof.
  induction l as [|a l IH]; cbn; [destruct (p x); reflexivity|].
  destruct (p a) eqn:Pa; cbn; destruct (string_dec a x) as [->|N];
    rewrite ?IH, ?Pa; reflexivity.
Qed.

Lemma valid_of_corrupt_nil (s : StructType) (ls : list string) :
  filter (validLine s) (filter (corruptLine s) ls) = [].
Proof.
  rewrite filter_filter. induction ls as [|l ls IH]; cbn; [reflexivity|].
  unfold corruptLine at 1, validLine at 1. rewrite isNotNull_negb.
  destruct (isBlank l); cbn; [exact IH|].
  destruct (isNull (parseLine (asNullable s) l)); cbn; exact IH.
Qed.

(** A run with no new input on pending lines that are all corrupt. *)
Lemma rerun_of_corrupt (s : StructType) (g : list (list Cell))
  (ls h : list string) :
  rerun s (Storage.mk g (filter (corruptLine s) ls) h) =
  Storage.mk [] (filter (corruptLine s) ls) h.
Proof.
  unfold rerun. rewrite pipeline_eq. cbn [Storage.bad Storage.bad_history app].
  rewrite filter_idem, valid_of_corrupt_nil. reflexivity.
Qed.

(** X4: reading and classifying go line by line: the union of the two
    DataFrames is the DataFrame of the new lines followed by the previous
    ones, and each output of a run is the output for the new lines alone
    followed by the output for the previously invalid lines alone, so the
    outcome of a line does not depend on where it came from or on the
    lines around it. *)
Theorem run_splits_by_origin (s : StructType) (st : Storage.t)
  (n p : list string) :
  combined_df s n p = csv s (n ++ p) /\
  valid_df (combined_df s n p) = valid_df (csv s n) ++ valid_df (csv s p) /\
  invalid_df (combined_df s n p) = invalid_df (csv s n) ++ invalid_df (csv s p) /\
  Storage.good (pipeline s st n p) =
    Storage.good (pipeline s st n []) ++ Storage.good (pipeline s st [] p) /\
  Storage.bad (pipeline s st n p) =
    Storage.bad (pipeline s st n []) ++ Storage.bad (pipeline s st [] p).
Proof.
  split; [unfold combined_df, union; now rewrite csv_app|].
  split; [apply valid_df_app|]. split; [apply invalid_df_app|].
  rewrite !pipeline_eq. cbn [Storage.good Storage.bad app].
  rewrite app_nil_r, !filter_app, map_app. auto.
Qed.

(** X5: a run accounts for every line that is not blank exactly once: the
    number of rows written to the good output plus the number of lines
    written to the bad output is the number of non-blank input lines. *)
Theorem run_conserves_lines (s : StructType) (st : Storage.t)
  (n p : list string) :
  let st' := pipeline s st n p in
  List.length (Storage.good st') + List.length (Storage.bad st') =
  List.length (filter (fun l => negb (isBlank l)) (n ++ p)).
Proof.
  cbv zeta. rewrite pipeline_eq. cbn [Storage.good Storage.bad].
  rewrite length_map. induction (n ++ p) as [|l ls IH]; cbn; [reflexivity|].
  unfold validLine at 1, corruptLine at 1. rewrite isNotNull_negb.
  destruct (isBlank l); cbn; [exact IH|].
  destruct (isNull (parseLine (asNullable s) l)); cbn; lia.
Qed.

(** X6: both writes overwrite: what a run leaves in the good and the bad
    output is determined by its input lines alone, nothing of what these
    destinations held before survives, and a run without any input line
    leaves both empty. *)
Theorem outputs_overwritten (s : StructType) (st st0 : Storage.t)
  (n p : list string) :
  Storage.good (pipeline s st n p) = Storage.good (pipeline s st0 n p) /\
  Storage.bad (pipeline s st n p) = Storage.bad (pipeline s st0 n p) /\
  pipeline s st [] [] = Storage.mk [] [] (Storage.bad_history st).
Proof. rewrite !pipeline_eq. auto. Qed.

(** X7: a run with no new input, right after any run, empties the good
    output: the pending lines it reads are all corrupt again, so the rows
    the previous run wrote are overwritten by nothing, while the pending
    set stays; from then on further such runs change nothing. *)
Theorem rerun_empties_good (s : StructType) (st : Storage.t)
  (n p : list string) :
  let st1 := pipeline s st n p in
  rerun s st1 =
    Storage.mk [] (Storage.bad st1) (Storage.bad_history st1) /\
  rerun s (rerun s st1) = rerun s st1.
Proof.
  cbv zeta. rewrite pipeline_eq. cbn [Storage.bad Storage.bad_history].
  rewrite !rerun_of_corrupt. auto.
Qed.

(** X8: no line without quoting is quarantined without cause: every
    [plain] line of the bad output is an input line that is not blank and
    that breaks the field count or has a piece that does not convert. *)
Theorem pending_violates_schema (s : StructType) (st : Storage.t)
  (n p : list string) (l : string) :
  plain l ->
  In l (Storage.bad (pipeline s st n p)) ->
  In l (n ++ p) /\ isBlank l = false /\ violates (asNullable s) l.
Proof.
  intros _ H. apply pending_is_corrupt in H. destruct H as [Hin Hc].
  unfold corruptLine in Hc. apply andb_prop in Hc. destruct Hc as [Hb Hn].
  apply negb_true_iff in Hb. split; [exact Hin|]. split; [exact Hb|].
  unfold isNotNull in Hn. rewrite corrupt_record_parseLine in Hn.
  unfold violates.
  destruct (Nat.eqb (List.length (tokenize l))
                    (List.length (dataSchema (asNullable s)))) eqn:E.
  - cbn [negb orb] in Hn.
    destruct (snd (convert (dataSchema (asNullable s)) (tokenize l))) eqn:B;
      [|discriminate].
    apply Nat.eqb_eq in E.
    destruct (convert_flag_cause _ _ B) as [L | X]; [lia | now right].
  - left. now apply Nat.eqb_neq.
Qed.

Lemma pending_violates_schema_witness :
  In "5,45,Charlie Brown" (new_data_rdd ++ previous_invalid_rdd) /\
  isBlank "5,45,Charlie Brown" = false /\
  violates (asNullable schema) "5,45,Charlie Brown".
Proof.
  apply (pending_violates_schema schema Storage.empty
           new_data_rdd previous_invalid_rdd).
  - reflexivity.
  - vm_compute. auto.
Defined.

(** X9: when no input line is quoted (all are [plain]), every row of the
    good output comes from an input line that is not blank, has exactly
    one piece per data column, and whose every piece converts; the row
    holds the converted values. *)
Theorem good_rows_satisfy_schema (s : StructType) (st : Storage.t)
  (n p : list string) (r : list Cell) :
  (forall l, In l (n ++ p) -> plain l) ->
  In r (Storage.good (pipeline s st n p)) ->
  exists l, In l (n ++ p) /\ isBlank l = false /\
            List.length (tokenize l) = List.length (dataSchema (asNullable s)) /\
            all_fields_coerce (dataSchema (asNullable s)) (tokenize l) r.
Proof.
  intros _. rewrite pipeline_eq. cbn [Storage.good]. rewrite in_map_iff.
  intros [l [Hr Hin]]. apply filter_In in Hin. destruct Hin as [Hin Hv].
  unfold validLine in Hv. apply andb_prop in Hv. destruct Hv as [Hb Hn].
  apply negb_true_iff in Hb. exists l. split; [exact Hin|]. split; [exact Hb|].
  unfold isNull in Hn. rewrite corrupt_record_parseLine in Hn.
  destruct (Nat.eqb (List.length (tokenize l))
                    (List.length (dataSchema (asNullable s)))) eqn:E;
    [|discriminate].
  cbn [negb orb] in Hn.
  destruct (snd (convert (dataSchema (asNullable s)) (tokenize l))) eqn:B;
    [discriminate|].
  apply Nat.eqb_eq in E. split; [exact E|].
  subst r. rewrite data_parseLine. unfold all_fields_coerce.
  exact (proj2 (convert_flag_down _ _ B)).
Qed.

Lemma good_rows_satisfy_schema_witness :
  exists l, In l (new_data_rdd ++ previous_invalid_rdd) /\
            isBlank l = false /\
            List.length (tokenize l) =
              List.length (dataSchema (asNullable schema)) /\
            all_fields_coerce (dataSchema (asNullable schema)) (tokenize l)
              [Some (VInt 2); Some (VStr "Jane Smith"); Some (VInt 25)].
Proof.
  apply (good_rows_satisfy_schema schema Storage.empty
           new_data_rdd previous_invalid_rdd).
  - intros l H. cbn in H.
    repeat (destruct H as [<- | H]; [reflexivity|]). destruct H.
  - vm_compute. auto.
Defined.

(** X10: the run does not deduplicate: a corrupt line is written to the
    bad output as many times as it occurs among the new and the
    previously invalid lines together, so a line that is both pending and
    sent again is pending twice. *)
Theorem pending_keeps_duplicates (s : StructType) (st : Storage.t)
  (n p : list string) (l : string) :
  corruptLine s l = true ->
  count_occ string_dec (Storage.bad (pipeline s st n p)) l =
  count_occ string_dec n l + count_occ string_dec p l.
Proof.
  intros H. rewrite pipeline_eq. cbn [Storage.bad].
  rewrite count_occ_filter, H. apply count_occ_app.
Qed.

Lemma pending_keeps_duplicates_witness :
  count_occ string_dec
    (Storage.bad (pipeline schema Storage.empty
                    ["5,45,Charlie Brown"] ["5,45,Charlie Brown"]))
    "5,45,Charlie Brown" =
  count_occ string_dec ["5,45,Charlie Brown"] "5,45,Charlie Brown" +
  count_occ string_dec ["5,45,Charlie Brown"] "5,45,Charlie Brown".
Proof.
  apply (pending_keeps_duplicates schema Storage.empty
           ["5,45,Charlie Brown"] ["5,45,Charlie Brown"] "5,45,Charlie Brown").
  reflexivity.
Defined.

(** X11: a failed run is repaired by running again on the same input
    lines: whatever fault occurred and whatever the failed writes left
    behind, the run after it leaves the storage that a first run without
    faults would have left. *)
Theorem retry_after_failure (env : Env) (s : StructType) (st : Storage.t)
  (n p : list string) :
  pipeline s (fst (run env s st n p)) n p = pipeline s st n p.
Proof.
  rewrite !pipeline_eq. f_equal.
  unfold run. destruct (overwrite (good_write env) _) as [g' [|]].
  - destruct (overwrite (bad_write env) _) as [b' ok2]. reflexivity.
  - reflexivity.
Qed.

(** X12: no line that is not blank is dropped: each such input line is
    either written to the bad output, verbatim, or its row is written to
    the good output and the line is not in the bad output. *)
Theorem every_line_routed (s : StructType) (st : Storage.t)
  (n p : list string) (l : string) :
  In l (n ++ p) ->
  isBlank l = false ->
  let st' := pipeline s st n p in
  (In l (Storage.bad st') /\
   corrupt_record (parseLine (asNullable s) l) = Some l) \/
  (In (data (parseLine (asNullable s) l)) (Storage.good st') /\
   ~ In l (Storage.bad st')).
Proof.
  intros Hin Hb. cbv zeta.
  destruct (isNull (parseLine (asNullable s) l)) eqn:E.
  - right. split.
    + rewrite pipeline_eq. cbn [Storage.good]. apply in_map_iff.
      exists l. split; [reflexivity|]. apply filter_In. split; [exact Hin|].
      unfold validLine. now rewrite Hb, E.
    + rewrite pending_is_corrupt. intros [_ Hc]. unfold corruptLine in Hc.
      rewrite isNotNull_negb, E, andb_false_r in Hc. discriminate.
  - left. assert (N : isNotNull (parseLine (asNullable s) l) = true)
      by (rewrite isNotNull_negb, E; reflexivity).
    split; [|exact (isNotNull_corrupt_record _ _ N)].
    apply pending_is_corrupt. split; [exact Hin|].
    unfold corruptLine. now rewrite Hb, N.
Qed.

Lemma every_line_routed_witness :
  let st' := pipeline schema Storage.empty new_data_rdd previous_invalid_rdd in
  (In "2,Jane Smith,25" (Storage.bad st') /\
   corrupt_record (parseLine (asNullable schema) "2,Jane Smith,25") =
     Some "2,Jane Smith,25") \/
  (In (data (parseLine (asNullable schema) "2,Jane Smith,25"))
      (Storage.good st') /\
   ~ In "2,Jane Smith,25" (Storage.bad st')).
Proof.
  apply (every_line_routed schema Storage.empty new_data_rdd
           previous_invalid_rdd "2,Jane Smith,25").
  - vm_compute. auto.
  - reflexivity.
Defined.

(** X13: both outputs keep the input order, new lines before previously
    invalid ones: the bad output is the list of input lines with the
    blank and the accepted lines taken out, and the good output is the
    list of rows of the input lines with the blank and the corrupt lines
    taken out. *)
Theorem outputs_in_input_order (s : StructType) (st : Storage.t)
  (n p : list string) :
  Storage.bad (pipeline s st n p) =
    filter (fun l => negb (isBlank l) &&
                     isNotNull (parseLine (asNullable s) l)) (n ++ p) /\
  Storage.good (pipeline s st n p) =
    map (fun l => data (parseLine (asNullable s) l))
        (filter (fun l => negb (isBlank l) &&
                          isNull (parseLine (asNullable s) l)) (n ++ p)).
Proof. rewrite pipeline_eq. split; reflexivity. Qed.

(** X14: a blank line is skipped by the reader: it gives no row, so it is
    neither in the good nor in the bad output, and a run with it among its
    input lines leaves the storage a run without it would leave. *)
Theorem blank_line_skipped (s : StructType) (st : Storage.t)
  (a b p : list string) (l : string) :
  isBlank l = true ->
  csv s (a ++ l :: b) = csv s (a ++ b) /\
  pipeline s st (a ++ l :: b) p = pipeline s st (a ++ b) p /\
  ~ In l (Storage.bad (pipeline s st (a ++ l :: b) p)).
Proof.
  intros Hb.
  assert (E : csv s (a ++ l :: b) = csv s (a ++ b)).
  { rewrite !csv_app. f_equal. unfold csv. cbn. rewrite Hb. reflexivity. }
  split; [exact E|]. split.
  - unfold pipeline, run, combined_df. cbv zeta. rewrite E. reflexivity.
  - rewrite pending_is_corrupt. intros [_ Hc]. unfold corruptLine in Hc.
    rewrite Hb in Hc. discriminate.
Qed.

Lemma blank_line_skipped_witness :
  csv schema (["1,John Doe,30"] ++ "  " :: ["5,45,Charlie Brown"]) =
  csv schema (["1,John Doe,30"] ++ ["5,45,Charlie Brown"]).
Proof.
  apply (blank_line_skipped schema Storage.empty
           ["1,John Doe,30"] ["5,45,Charlie Brown"] [] "  ").
  reflexivity.
Defined.
